(** * Dudwalls SDK, Python example: the [DudwallsClient] wrapper

    A shallow embedding of [examples/python-example.py].  The wrapper is a
    thin layer over the [requests] library: every method builds a URL,
    sends one HTTP request and decodes the JSON reply.  The embedding keeps
    that shape:

    - Python values, exceptions and the [try]/[except] discipline are an
      error monad over an explicit world;
    - the remote service is an arbitrary function of the requests it has
      received so far, so every theorem holds for every server behaviour;
    - the world records the client instance, the requests sent (in order)
      and what was printed.
*)

From Stdlib Require Import Ascii.
From stdpp Require Import gmap strings list pretty.

Open Scope string_scope.
Open Scope Z_scope.
Open Scope list_scope.

(** ** Python values *)

(** What [response.json()] can produce and what callers pass as documents.
    A [str] is held as its UTF-8 bytes. *)
#[local] Set Warnings "-register-all".
Inductive PyValue : Type :=
| PNone
| PBool (b : bool)
| PInt (z : Z)
| PFloat (literal : string)
| PStr (s : string)
| PList (items : list PyValue)
| PDict (entries : list (string * PyValue)).

(** ** Python exceptions *)

(** The exception classes that can reach the wrapper.  All of them derive
    from [Exception]; the first five derive from
    [requests.exceptions.RequestException], [TypeError] and [ValueError]
    are the builtin ones. *)
Inductive ExnClass : Type :=
| RequestException
| ConnectionError
| Timeout
| HTTPError
| JSONDecodeError
| TypeError
| ValueError
| Exception.

(** An exception: its class, its [str()] and its [__context__], the
    exception that was being handled when it was raised, if any. *)
Inductive PyExn : Type := mkExn {
  exn_class : ExnClass;
  exn_str : string;
  exn_context : option PyExn
}.

Definition is_RequestException (c : ExnClass) : bool :=
  match c with
  | RequestException | ConnectionError | Timeout | HTTPError | JSONDecodeError => true
  | TypeError | ValueError | Exception => false
  end.

Definition is_Exception (c : ExnClass) : bool := true.

Global Instance ExnClass_eq_dec : EqDecision ExnClass.
Proof. solve_decision. Defined.

(** ** HTTP requests and the remote service *)

(** One call of [requests.request]: the keyword arguments the wrapper passes. *)
Record Request : Type := mkRequest {
  req_method : string;
  req_url : string;
  req_headers : gmap string string;
  req_json : option PyValue;
  req_timeout : Z
}.

(** The body of a reply either decodes as JSON or it does not, in which
    case [response.json()] fails with the decoder's message (and whatever
    [__context__] the library gives that failure). *)
Inductive Body : Type :=
| JsonBody (v : PyValue)
| NotJson (decode_error : string) (context : option PyExn).

(** A response as [requests] hands it back; [response_url] is its [url]
    attribute. *)
Record Response : Type := mkResponse {
  status_code : Z;
  reason : string;
  response_url : string;
  body : Body
}.

(** A request either fails below HTTP (no connection, timeout, ...) with
    some [RequestException] that is not an [HTTPError], carrying the
    message and the [__context__] the library gives it, or is answered. *)
Inductive TransportFailure : Type :=
| NoConnection
| TimedOut
| OtherTransport.

Definition transport_class (f : TransportFailure) : ExnClass :=
  match f with
  | NoConnection => ConnectionError
  | TimedOut => Timeout
  | OtherTransport => RequestException
  end.

Inductive NetOutcome : Type :=
| Unreachable (f : TransportFailure) (message : string) (context : option PyExn)
| Replied (r : Response).

(** The remote service, seen through [requests]: deterministic in the
    requests received so far. *)
Definition Remote : Type := list Request → Request → NetOutcome.

(** ** String helpers of the Python standard library *)

Fixpoint char_in (a : Ascii.ascii) (chars : string) : bool :=
  match chars with
  | EmptyString => false
  | String c rest => if Ascii.eqb a c then true else char_in a rest
  end.

(** [s.rstrip(chars)]: drop every trailing character that occurs in [chars]. *)
Fixpoint rstrip (chars : string) (s : string) : string :=
  match s with
  | EmptyString => EmptyString
  | String a t =>
      match rstrip chars t with
      | EmptyString => if char_in a chars then EmptyString else String a EmptyString
      | String b t' => String a (String b t')
      end
  end.

(** A byte [10xxxxxx]: inside a character of a UTF-8 string. *)
Definition is_continuation_byte (a : Ascii.ascii) : bool :=
  match a with
  | Ascii.Ascii _ _ _ _ _ _ b6 b7 => b7 && negb b6
  end.

(** The number of characters (code points) of a string held in UTF-8: what
    [len] of a [str] counts. *)
Fixpoint code_points (s : string) : nat :=
  match s with
  | EmptyString => 0%nat
  | String a t =>
      if is_continuation_byte a then code_points t else S (code_points t)
  end.

Fixpoint last_char (s : string) : option Ascii.ascii :=
  match s with
  | EmptyString => None
  | String a EmptyString => Some a
  | String _ t => last_char t
  end.

(** Every character of [s] occurs in [chars]. *)
Fixpoint only_chars (chars : string) (s : string) : bool :=
  match s with
  | EmptyString => true
  | String a t => char_in a chars && only_chars chars t
  end.

(** ** The client instance *)

Module Client.
Record t : Type := mk {
  endpoint : string;
  api_key : string;
  timeout : Z;
  base_url : string;
  headers : gmap string string
}.
End Client.

Definition default_timeout : Z := 10.

(** [DudwallsClient.__init__] *)
Definition __init__ (endpoint api_key : string) (timeout : Z) : Client.t :=
  let endpoint' := rstrip "/" endpoint in
  {| Client.endpoint := endpoint';
     Client.api_key := api_key;
     Client.timeout := timeout;
     Client.base_url := endpoint' +:+ "/api/dudwalls";
     Client.headers :=
       {[ "Authorization" := "Bearer " +:+ api_key;
          "Content-Type" := "application/json";
          "User-Agent" := "Dudwalls-Python-SDK/1.0.0" ]} |}.

(** ** The world and the monad of method bodies *)

Record World : Type := mkWorld {
  self : Client.t;            (* the attributes of the client instance *)
  sent : list Request;        (* requests handed to [requests], oldest first *)
  stdout : list string        (* lines printed, oldest first *)
}.

Inductive Outcome (A : Type) : Type :=
| Returned (a : A)
| Raised (e : PyExn).
Arguments Returned {A} a.
Arguments Raised {A} e.

Definition M (A : Type) : Type := World → Outcome A * World.

Definition ret {A} (a : A) : M A := λ w, (Returned a, w).

Definition bind {A B} (m : M A) (k : A → M B) : M B :=
  λ w, match m w with
       | (Returned a, w') => k a w'
       | (Raised e, w') => (Raised e, w')
       end.

(** An exception of the library's surfaces. *)
Definition raise_exn {A} (e : PyExn) : M A :=
  λ w, (Raised e, w).

(** [raise C(message)] *)
Definition raise {A} (c : ExnClass) (message : string) : M A :=
  raise_exn (mkExn c message None).

(** An exception that leaves an [except] clause was raised while [handled]
    was being handled: unless it has a context already, [handled] becomes
    its [__context__]. *)
Definition chained (handled : PyExn) (e : PyExn) : PyExn :=
  match exn_context e with
  | Some _ => e
  | None => mkExn (exn_class e) (exn_str e) (Some handled)
  end.

(** [try: m  except C as e: handler e], where [catches] decides
    [isinstance(e, C)]. *)
Definition try_except {A} (m : M A) (catches : ExnClass → bool)
    (handler : PyExn → M A) : M A :=
  λ w, match m w with
       | (Returned a, w') => (Returned a, w')
       | (Raised e, w') =>
           if catches (exn_class e) then
             match handler e w' with
             | (Returned a, w'') => (Returned a, w'')
             | (Raised e', w'') => (Raised (chained e e'), w'')
             end
           else (Raised e, w')
       end.

(** Read an attribute of [self]. *)
Definition attr {A} (field : Client.t → A) : M A :=
  λ w, (Returned (field (self w)), w).

Definition print (line : string) : M unit :=
  λ w, (Returned tt, mkWorld (self w) (sent w) (stdout w ++ [line])).

Notation "'let*' x ':=' m 'in' k" := (bind m (λ x, k))
  (at level 10, x name, m at level 100, k at level 200, only parsing).
Notation "'do' m 'then' k" := (bind m (λ _, k))
  (at level 10, m at level 100, k at level 200, only parsing).

(** ** The [requests] library, as far as the wrapper uses it *)

Section Wrapper.
Variable remote : Remote.

(** [requests.request(method=, url=, headers=, json=, timeout=)]: the
    call is recorded; a timeout that is not positive is refused with a
    builtin [ValueError] before anything is sent; otherwise the remote
    service decides the fate of the request. *)
Definition requests_request (method url : string)
    (headers : gmap string string) (json : option PyValue) (timeout : Z)
    : M Response :=
  λ w,
    let r := mkRequest method url headers json timeout in
    let w' := mkWorld (self w) (sent w ++ [r]) (stdout w) in
    if bool_decide (timeout ≤ 0) then
      (Raised (mkExn ValueError
         ("Attempted to set connect timeout to " +:+ pretty timeout +:+
          ", but the timeout cannot be set to a value less than or equal to 0.")
         None), w')
    else
      match remote (sent w) r with
      | Unreachable f message context =>
          (Raised (mkExn (transport_class f) message context), w')
      | Replied resp => (Returned resp, w')
      end.

(** [requests.get(url, timeout=)]: no headers and no body of the caller's. *)
Definition requests_get (url : string) (timeout : Z) : M Response :=
  requests_request "GET" url ∅ None timeout.

(** [response.raise_for_status()] *)
Definition raise_for_status (resp : Response) : M unit :=
  let code := status_code resp in
  if bool_decide (400 ≤ code < 500) then
    raise HTTPError
      (pretty code +:+ " Client Error: " +:+ reason resp +:+ " for url: " +:+
       response_url resp)
  else if bool_decide (500 ≤ code < 600) then
    raise HTTPError
      (pretty code +:+ " Server Error: " +:+ reason resp +:+ " for url: " +:+
       response_url resp)
  else ret tt.

(** [response.json()]; its failure is a [RequestException], as it is in
    [requests] since 2.27. *)
Definition response_json (resp : Response) : M PyValue :=
  match body resp with
  | JsonBody v => ret v
  | NotJson message context => raise_exn (mkExn JSONDecodeError message context)
  end.

(** [len(x)]; a dict counts its distinct keys, a string its characters. *)
Definition py_len (x : PyValue) : M PyValue :=
  match x with
  | PList items => ret (PInt (Z.of_nat (length items)))
  | PDict entries => ret (PInt (Z.of_nat (length (remove_dups entries.*1))))
  | PStr s => ret (PInt (Z.of_nat (code_points s)))
  | PNone => raise TypeError "object of type 'NoneType' has no len()"
  | PBool _ => raise TypeError "object of type 'bool' has no len()"
  | PInt _ => raise TypeError "object of type 'int' has no len()"
  | PFloat _ => raise TypeError "object of type 'float' has no len()"
  end.

(** ** The methods of [DudwallsClient] *)

Definition _request (method path : string) (data : option PyValue) : M PyValue :=
  let* base := attr Client.base_url in
  let url := base +:+ path in
  try_except
    (let* hdrs := attr Client.headers in
     let* tmo := attr Client.timeout in
     let* response := requests_request method url hdrs data tmo in
     do raise_for_status response then
     response_json response)
    is_RequestException
    (λ e, raise Exception ("Dudwalls API error: " +:+ exn_str e)).

Definition ping : M PyValue :=
  let* ep := attr Client.endpoint in
  let* tmo := attr Client.timeout in
  let url := ep +:+ "/api/health" in
  let* response := requests_get url tmo in
  do raise_for_status response then
  response_json response.

Definition get_databases : M PyValue :=
  _request "GET" "/" None.

Definition create_database (name : string) : M PyValue :=
  _request "POST" "/" (Some (PDict [("name", PStr name)])).

Definition delete_database (name : string) : M PyValue :=
  _request "DELETE" ("/" +:+ name) None.

Definition get_collections (database : string) : M PyValue :=
  _request "GET" ("/" +:+ database) None.

Definition create_collection (database collection : string) : M PyValue :=
  _request "POST" ("/" +:+ database) (Some (PDict [("name", PStr collection)])).

Definition delete_collection (database collection : string) : M PyValue :=
  _request "DELETE" ("/" +:+ database +:+ "/" +:+ collection) None.

Definition find (database collection : string) : M PyValue :=
  _request "GET" ("/" +:+ database +:+ "/" +:+ collection) None.

Definition find_one (database collection doc_id : string) : M PyValue :=
  try_except
    (_request "GET"
       ("/" +:+ database +:+ "/" +:+ collection +:+ "/" +:+ doc_id) None)
    is_Exception
    (λ _, ret PNone).

Definition insert_one (database collection : string) (document : PyValue)
    : M PyValue :=
  _request "POST" ("/" +:+ database +:+ "/" +:+ collection) (Some document).

(** The body of the [for] loop of [insert_many]: [results] is the list
    built so far. *)
Definition insert_many_body (database collection : string)
    (doc : PyValue) (results : list PyValue) : M (list PyValue) :=
  try_except
    (let* result := insert_one database collection doc in
     ret (results ++ [result]))
    is_Exception
    (λ e, do print ("Failed to insert document: " +:+ exn_str e) then
          ret results).

(** The [for] loop itself. *)
Fixpoint insert_many_loop (database collection : string)
    (documents : list PyValue) (results : list PyValue) : M (list PyValue) :=
  match documents with
  | [] => ret results
  | doc :: rest =>
      let* results' := insert_many_body database collection doc results in
      insert_many_loop database collection rest results'
  end.

Definition insert_many (database collection : string)
    (documents : list PyValue) : M PyValue :=
  let* results := insert_many_loop database collection documents [] in
  ret (PList results).

Definition update_one (database collection doc_id : string) (update : PyValue)
    : M PyValue :=
  _request "PUT"
    ("/" +:+ database +:+ "/" +:+ collection +:+ "/" +:+ doc_id) (Some update).

Definition delete_one (database collection doc_id : string) : M PyValue :=
  _request "DELETE"
    ("/" +:+ database +:+ "/" +:+ collection +:+ "/" +:+ doc_id) None.

Definition count (database collection : string) : M PyValue :=
  let* documents := find database collection in
  py_len documents.

(** A call of any public method, with its arguments. *)
Inductive Call : Type :=
| Ping
| GetDatabases
| CreateDatabase (name : string)
| DeleteDatabase (name : string)
| GetCollections (database : string)
| CreateCollection (database collection : string)
| DeleteCollection (database collection : string)
| Find (database collection : string)
| FindOne (database collection doc_id : string)
| InsertOne (database collection : string) (document : PyValue)
| InsertMany (database collection : string) (documents : list PyValue)
| UpdateOne (database collection doc_id : string) (update : PyValue)
| DeleteOne (database collection doc_id : string)
| Count (database collection : string).

Definition invoke (c : Call) : M PyValue :=
  match c with
  | Ping => ping
  | GetDatabases => get_databases
  | CreateDatabase name => create_database name
  | DeleteDatabase name => delete_database name
  | GetCollections db => get_collections db
  | CreateCollection db coll => create_collection db coll
  | DeleteCollection db coll => delete_collection db coll
  | Find db coll => find db coll
  | FindOne db coll doc_id => find_one db coll doc_id
  | InsertOne db coll doc => insert_one db coll doc
  | InsertMany db coll docs => insert_many db coll docs
  | UpdateOne db coll doc_id upd => update_one db coll doc_id upd
  | DeleteOne db coll doc_id => delete_one db coll doc_id
  | Count db coll => count db coll
  end.

End Wrapper.

(** * Derived notions used in the statements *)

(** The requests a call hands to [requests], in order: what [sent] gained. *)
Definition issued (remote : Remote) (c : Call) (w : World) : list Request :=
  drop (length (sent w)) (sent (snd (invoke remote c w))).

(** The world after one more request has been handed to [requests]. *)
Definition push (r : Request) (w : World) : World :=
  mkWorld (self w) (sent w ++ [r]) (stdout w).

(** The request [_request] builds from its arguments and the instance. *)
Definition api_request (cl : Client.t) (method path : string)
    (data : option PyValue) : Request :=
  mkRequest method (Client.base_url cl +:+ path) (Client.headers cl) data
    (Client.timeout cl).

(** The request [ping] builds. *)
Definition health_request (cl : Client.t) : Request :=
  mkRequest "GET" (Client.endpoint cl +:+ "/api/health") ∅ None (Client.timeout cl).

(** What [raise_for_status] and [json] make of the remote's answer. *)
Definition answer_result (o : NetOutcome) : Outcome PyValue :=
  match o with
  | Unreachable f message context =>
      Raised (mkExn (transport_class f) message context)
  | Replied resp =>
      let code := status_code resp in
      if bool_decide (400 ≤ code < 500) then
        Raised (mkExn HTTPError
          (pretty code +:+ " Client Error: " +:+ reason resp +:+ " for url: " +:+
           response_url resp) None)
      else if bool_decide (500 ≤ code < 600) then
        Raised (mkExn HTTPError
          (pretty code +:+ " Server Error: " +:+ reason resp +:+ " for url: " +:+
           response_url resp) None)
      else
        match body resp with
        | JsonBody v => Returned v
        | NotJson message context => Raised (mkExn JSONDecodeError message context)
        end
  end.

(** What [requests.request], [raise_for_status] and [json] make of a
    request and of the remote's answer to it. *)
Definition raw_result (r : Request) (o : NetOutcome) : Outcome PyValue :=
  if bool_decide (req_timeout r ≤ 0) then
    Raised (mkExn ValueError
      ("Attempted to set connect timeout to " +:+ pretty (req_timeout r) +:+
       ", but the timeout cannot be set to a value less than or equal to 0.")
      None)
  else answer_result o.

(** The [except RequestException] clause of [_request]. *)
Definition wrapped (o : Outcome PyValue) : Outcome PyValue :=
  match o with
  | Returned v => Returned v
  | Raised e =>
      if is_RequestException (exn_class e) then
        Raised (mkExn Exception ("Dudwalls API error: " +:+ exn_str e) (Some e))
      else Raised e
  end.

(** A request failed below HTTP, or was answered with a 4xx or 5xx status:
    the exception [requests] raises for it, if any. *)
Definition network_failure (o : NetOutcome) : option PyExn :=
  match o with
  | Unreachable f message context =>
      Some (mkExn (transport_class f) message context)
  | Replied resp =>
      let code := status_code resp in
      if bool_decide (400 ≤ code < 500) then
        Some (mkExn HTTPError
          (pretty code +:+ " Client Error: " +:+ reason resp +:+ " for url: " +:+
           response_url resp) None)
      else if bool_decide (500 ≤ code < 600) then
        Some (mkExn HTTPError
          (pretty code +:+ " Server Error: " +:+ reason resp +:+ " for url: " +:+
           response_url resp) None)
      else None
  end.

(** The single request of every method that sends exactly one;
    [insert_many] sends one per document and has no entry. *)
Definition request_for (cl : Client.t) (c : Call) : option Request :=
  match c with
  | Ping => Some (health_request cl)
  | GetDatabases => Some (api_request cl "GET" "/" None)
  | CreateDatabase name =>
      Some (api_request cl "POST" "/" (Some (PDict [("name", PStr name)])))
  | DeleteDatabase name => Some (api_request cl "DELETE" ("/" +:+ name) None)
  | GetCollections db => Some (api_request cl "GET" ("/" +:+ db) None)
  | CreateCollection db coll =>
      Some (api_request cl "POST" ("/" +:+ db) (Some (PDict [("name", PStr coll)])))
  | DeleteCollection db coll =>
      Some (api_request cl "DELETE" ("/" +:+ db +:+ "/" +:+ coll) None)
  | Find db coll | Count db coll =>
      Some (api_request cl "GET" ("/" +:+ db +:+ "/" +:+ coll) None)
  | FindOne db coll doc_id =>
      Some (api_request cl "GET" ("/" +:+ db +:+ "/" +:+ coll +:+ "/" +:+ doc_id) None)
  | InsertOne db coll doc =>
      Some (api_request cl "POST" ("/" +:+ db +:+ "/" +:+ coll) (Some doc))
  | InsertMany _ _ _ => None
  | UpdateOne db coll doc_id upd =>
      Some (api_request cl "PUT" ("/" +:+ db +:+ "/" +:+ coll +:+ "/" +:+ doc_id) (Some upd))
  | DeleteOne db coll doc_id =>
      Some (api_request cl "DELETE" ("/" +:+ db +:+ "/" +:+ coll +:+ "/" +:+ doc_id) None)
  end.

(** The methods that let a failure reach their caller. *)
Definition surfaces_failures (c : Call) : bool :=
  match c with
  | FindOne _ _ _ | InsertMany _ _ _ => false
  | _ => true
  end.

(** A computation leaves the client instance alone. *)
Definition keeps_self {A} (m : M A) : Prop :=
  ∀ w, self (snd (m w)) = self w.

(** A computation only ever appends to the requests sent. *)
Definition appends_requests {A} (m : M A) : Prop :=
  ∀ w, sent w `prefix_of` sent (snd (m w)).

(** * Sample remotes and worlds *)

(** A fresh world around a client for [http://h]: nothing sent, nothing
    printed. *)
Definition sample_client : Client.t := __init__ "http://h" "k" default_timeout.

Definition sample_world : World := mkWorld sample_client [] [].

(** Nothing listens. *)
Definition remote_down : Remote :=
  λ _ _, Unreachable NoConnection "Connection refused" None.

(** Everything is missing. *)
Definition remote_404 : Remote :=
  λ _ r, Replied (mkResponse 404 "Not Found" (req_url r)
                    (JsonBody (PDict [("error", PStr "nope")]))).

(** Every collection holds the same two documents. *)
Definition two_docs : PyValue :=
  PList [PDict [("id", PStr "1"); ("a", PInt 1)];
         PDict [("id", PStr "2"); ("a", PInt 2)]].

Definition remote_two_docs : Remote :=
  λ _ r, Replied (mkResponse 200 "OK" (req_url r) (JsonBody two_docs)).

(** Echoes an inserted document back, but rejects the second request it
    receives with a 500. *)
Definition remote_second_fails : Remote :=
  λ history r,
    if bool_decide (length history = 1%nat) then
      Replied (mkResponse 500 "Internal Server Error" (req_url r)
                 (NotJson "Expecting value" None))
    else
      Replied (mkResponse 201 "Created" (req_url r)
                 (JsonBody (default PNone (req_json r)))).

Definition three_docs : list PyValue :=
  [PDict [("n", PInt 0)]; PDict [("n", PInt 1)]; PDict [("n", PInt 2)]].

(** Answers every request with [204 No Content]: success, but no body. *)
Definition remote_no_content : Remote :=
  λ _ r, Replied (mkResponse 204 "No Content" (req_url r)
                    (NotJson "Expecting value" None)).

(** Answers every request with the JSON number [7]. *)
Definition remote_seven : Remote :=
  λ _ r, Replied (mkResponse 200 "OK" (req_url r) (JsonBody (PInt 7))).


(** * Strings *)

Lemma append_assoc (a b c : string) : (a +:+ b) +:+ c = a +:+ b +:+ c.
Proof.
  induction a as [|x a IH]; [reflexivity|].
  change (String x ((a +:+ b) +:+ c) = String x (a +:+ b +:+ c)).
  by rewrite IH.
Qed.

Lemma rstrip_cons (chars : string) (a : Ascii.ascii) (t : string) :
  rstrip chars (String a t) =
  match rstrip chars t with
  | EmptyString => if char_in a chars then EmptyString else String a EmptyString
  | String b t' => String a (String b t')
  end.
Proof. reflexivity. Qed.

Lemma rstrip_append_slash (e : string) : rstrip "/" (e +:+ "/") = rstrip "/" e.
Proof.
  induction e as [|x e IH]; [reflexivity|].
  change (rstrip "/" (String x (e +:+ "/")) = rstrip "/" (String x e)).
  by rewrite !rstrip_cons, IH.
Qed.

Lemma rstrip_no_trailing_slash (e : string) :
  last_char e ≠ Some "/"%char → rstrip "/" e = e.
Proof.
  induction e as [|x e IH]; [reflexivity|].
  destruct e as [|y e].
  - cbn. intros Hx. destruct (Ascii.eqb_spec x "/"); [congruence|done].
  - intros Hlast. rewrite rstrip_cons, IH; [done|]. exact Hlast.
Qed.

(** * The monad: what each building block does to the world *)

Create HintDb frame.

Section Frame.
Context {A B : Type}.

Lemma keeps_self_ret (a : A) : keeps_self (ret a).
Proof. by intros w. Qed.

Lemma keeps_self_raise c message : keeps_self (@raise A c message).
Proof. by intros w. Qed.

Lemma keeps_self_raise_exn e : keeps_self (@raise_exn A e).
Proof. by intros w. Qed.

Lemma keeps_self_attr (field : Client.t → A) : keeps_self (attr field).
Proof. by intros w. Qed.

Lemma keeps_self_bind (m : M A) (k : A → M B) :
  keeps_self m → (∀ a, keeps_self (k a)) → keeps_self (bind m k).
Proof.
  intros Hm Hk w. unfold bind. specialize (Hm w).
  destruct (m w) as [[a|e] w']; simpl in *; [|done].
  by rewrite Hk.
Qed.

Lemma keeps_self_try_except (m : M A) catches handler :
  keeps_self m → (∀ e, keeps_self (handler e)) →
  keeps_self (try_except m catches handler).
Proof.
  intros Hm Hh w. unfold try_except. specialize (Hm w).
  destruct (m w) as [[a|e] w']; simpl in *; [done|].
  destruct (catches (exn_class e)); [|done]. specialize (Hh e w').
  by destruct (handler e w') as [[a|e'] w'']; simpl in *; rewrite Hh.
Qed.

Lemma appends_requests_ret (a : A) : appends_requests (ret a).
Proof. by intros w. Qed.

Lemma appends_requests_raise c message : appends_requests (@raise A c message).
Proof. by intros w. Qed.

Lemma appends_requests_raise_exn e : appends_requests (@raise_exn A e).
Proof. by intros w. Qed.

Lemma appends_requests_attr (field : Client.t → A) : appends_requests (attr field).
Proof. by intros w. Qed.

Lemma appends_requests_bind (m : M A) (k : A → M B) :
  appends_requests m → (∀ a, appends_requests (k a)) → appends_requests (bind m k).
Proof.
  intros Hm Hk w. unfold bind. specialize (Hm w).
  destruct (m w) as [[a|e] w']; simpl in *; [|done].
  etrans; [exact Hm|apply Hk].
Qed.

Lemma appends_requests_try_except (m : M A) catches handler :
  appends_requests m → (∀ e, appends_requests (handler e)) →
  appends_requests (try_except m catches handler).
Proof.
  intros Hm Hh w. unfold try_except. specialize (Hm w).
  destruct (m w) as [[a|e] w']; simpl in *; [done|].
  destruct (catches (exn_class e)); [|done]. specialize (Hh e w').
  by destruct (handler e w') as [[a|e'] w'']; simpl in *; etrans.
Qed.
End Frame.

Lemma keeps_self_print line : keeps_self (print line).
Proof. by intros w. Qed.

Lemma appends_requests_print line : appends_requests (print line).
Proof. by intros w. Qed.

Lemma keeps_self_requests_request remote method url hdrs json tmo :
  keeps_self (requests_request remote method url hdrs json tmo).
Proof.
  intros w. unfold requests_request.
  case_bool_decide; [done|]. by destruct (remote _ _).
Qed.

Lemma appends_requests_requests_request remote method url hdrs json tmo :
  appends_requests (requests_request remote method url hdrs json tmo).
Proof.
  intros w. unfold requests_request.
  case_bool_decide; [|destruct (remote _ _)]; simpl; by apply prefix_app_r.
Qed.

Lemma keeps_self_raise_for_status resp : keeps_self (raise_for_status resp).
Proof. intros w. unfold raise_for_status. by repeat case_bool_decide. Qed.

Lemma appends_requests_raise_for_status resp :
  appends_requests (raise_for_status resp).
Proof. intros w. unfold raise_for_status. by repeat case_bool_decide. Qed.

Lemma keeps_self_response_json resp : keeps_self (response_json resp).
Proof. intros w. unfold response_json. by destruct (body resp). Qed.

Lemma appends_requests_response_json resp : appends_requests (response_json resp).
Proof. intros w. unfold response_json. by destruct (body resp). Qed.

Lemma keeps_self_py_len x : keeps_self (py_len x).
Proof. intros w. by destruct x. Qed.

Lemma appends_requests_py_len x : appends_requests (py_len x).
Proof. intros w. by destruct x. Qed.

#[global] Hint Resolve
  keeps_self_ret keeps_self_raise keeps_self_raise_exn keeps_self_attr
  keeps_self_bind
  keeps_self_try_except keeps_self_print keeps_self_requests_request
  keeps_self_raise_for_status keeps_self_response_json keeps_self_py_len
  appends_requests_ret appends_requests_raise appends_requests_raise_exn
  appends_requests_attr
  appends_requests_bind appends_requests_try_except appends_requests_print
  appends_requests_requests_request appends_requests_raise_for_status
  appends_requests_response_json appends_requests_py_len : frame.

Ltac frame := unfold requests_get; cbv zeta; auto 20 with frame.

Lemma keeps_self__request remote method path data :
  keeps_self (_request remote method path data).
Proof. unfold _request. frame. Qed.

Lemma appends_requests__request remote method path data :
  appends_requests (_request remote method path data).
Proof. unfold _request. frame. Qed.

Lemma keeps_self_ping remote : keeps_self (ping remote).
Proof. unfold ping. frame. Qed.

Lemma appends_requests_ping remote : appends_requests (ping remote).
Proof. unfold ping. frame. Qed.

(** * The two ways a request leaves the wrapper *)

(** [_request] sends exactly the request built from its arguments and
    wraps whatever [requests] raises. *)
Lemma _request_eq remote method path data w :
  _request remote method path data w =
  let r := api_request (self w) method path data in
  (wrapped (raw_result r (remote (sent w) r)), push r w).
Proof.
  unfold _request, bind, try_except, attr, requests_request,
    raise_for_status, response_json, api_request, push, raw_result,
    answer_result, raise, raise_exn, chained; simpl.
  case_bool_decide; simpl; [done|].
  destruct (remote _ _) as [f message context|resp]; simpl.
  - by destruct f.
  - repeat case_bool_decide; simpl; try done.
    by destruct (body resp).
Qed.

(** [ping] sends the health request and lets whatever [requests] raises
    through. *)
Lemma ping_eq remote w :
  ping remote w =
  let r := health_request (self w) in
  (raw_result r (remote (sent w) r), push r w).
Proof.
  unfold ping, bind, attr, requests_get, requests_request,
    raise_for_status, response_json, health_request, push, raw_result,
    answer_result, raise, raise_exn; simpl.
  case_bool_decide; simpl; [done|].
  destruct (remote _ _) as [f message context|resp]; simpl; [done|].
  repeat case_bool_decide; simpl; try done.
  by destruct (body resp).
Qed.

Lemma network_failure_answer o e :
  network_failure o = Some e → answer_result o = Raised e.
Proof.
  unfold network_failure, answer_result. destruct o as [f message context|resp].
  - by intros [= <-].
  - repeat case_bool_decide; by intros [= <-].
Qed.

Lemma network_failure_raw r o e :
  0 < req_timeout r →
  network_failure o = Some e → raw_result r o = Raised e.
Proof.
  intros Htmo He. unfold raw_result.
  case_bool_decide; [lia|]. by apply network_failure_answer.
Qed.

Lemma network_failure_is_RequestException o e :
  network_failure o = Some e → is_RequestException (exn_class e) = true.
Proof.
  unfold network_failure. destruct o as [[] message context|resp].
  1-3: by intros [= <-].
  repeat case_bool_decide; by intros [= <-].
Qed.

(** * The loop of [insert_many] *)

Lemma insert_one_eq remote db coll doc w :
  insert_one remote db coll doc w =
  let r := api_request (self w) "POST" ("/" +:+ db +:+ "/" +:+ coll) (Some doc) in
  (wrapped (raw_result r (remote (sent w) r)), push r w).
Proof. apply _request_eq. Qed.

Lemma insert_many_body_eq remote db coll doc acc w :
  insert_many_body remote db coll doc acc w =
  match insert_one remote db coll doc w with
  | (Returned v, w') => (Returned (acc ++ [v]), w')
  | (Raised e, w') =>
      (Returned acc,
       mkWorld (self w') (sent w')
         (stdout w' ++ ["Failed to insert document: " +:+ exn_str e]))
  end.
Proof.
  unfold insert_many_body, try_except, bind, ret, print.
  by destruct (insert_one remote db coll doc w) as [[v|e] w'].
Qed.

Lemma insert_many_loop_cons remote db coll doc docs acc w :
  insert_many_loop remote db coll (doc :: docs) acc w =
  match insert_many_body remote db coll doc acc w with
  | (Returned acc', w') => insert_many_loop remote db coll docs acc' w'
  | (Raised e, w') => (Raised e, w')
  end.
Proof. reflexivity. Qed.

(** One more document at the end: one more loop body after the others. *)
Lemma insert_many_loop_snoc remote db coll docs doc acc w :
  insert_many_loop remote db coll (docs ++ [doc]) acc w =
  match insert_many_loop remote db coll docs acc w with
  | (Returned acc', w') => insert_many_body remote db coll doc acc' w'
  | (Raised e, w') => (Raised e, w')
  end.
Proof.
  revert acc w. induction docs as [|d docs IH]; intros acc w.
  - change ([] ++ [doc]) with [doc]. rewrite insert_many_loop_cons.
    cbn [insert_many_loop]. unfold ret.
    by destruct (insert_many_body remote db coll doc acc w) as [[acc'|e] w'].
  - change ((d :: docs) ++ [doc]) with (d :: (docs ++ [doc])).
    rewrite !insert_many_loop_cons.
    destruct (insert_many_body remote db coll d acc w) as [[acc1|e] w1]; [apply IH|done].
Qed.


(** One request per document, in input order, whatever the replies; the
    client instance is left alone. *)
Lemma insert_many_loop_world remote db coll docs acc w :
  self (snd (insert_many_loop remote db coll docs acc w)) = self w ∧
  sent (snd (insert_many_loop remote db coll docs acc w)) =
    sent w ++
    ((λ doc, api_request (self w) "POST" ("/" +:+ db +:+ "/" +:+ coll) (Some doc))
       <$> docs).
Proof.
  revert acc w. induction docs as [|d docs IH]; intros acc w.
  - simpl. by rewrite app_nil_r.
  - rewrite insert_many_loop_cons, insert_many_body_eq, insert_one_eq. cbv zeta.
    destruct (wrapped _) as [v|e];
      match goal with |- context [insert_many_loop _ _ _ _ ?a ?w1] =>
        destruct (IH a w1) as [Hs Ht] end;
      simpl in *; rewrite Hs, Ht; by rewrite <-app_assoc.
Qed.

Lemma insert_many_eq remote db coll docs w :
  insert_many remote db coll docs w =
  match insert_many_loop remote db coll docs [] w with
  | (Returned results, w') => (Returned (PList results), w')
  | (Raised e, w') => (Raised e, w')
  end.
Proof. reflexivity. Qed.

Lemma insert_many_world remote db coll docs w :
  snd (insert_many remote db coll docs w) =
  snd (insert_many_loop remote db coll docs [] w).
Proof.
  rewrite insert_many_eq.
  by destruct (insert_many_loop remote db coll docs [] w) as [[rs|e] w'].
Qed.

(** * Every call: the client instance and the requests sent *)

Lemma invoke_keeps_self remote c : keeps_self (invoke remote c).
Proof.
  destruct c; simpl;
    unfold get_databases, create_database, delete_database, get_collections,
      create_collection, delete_collection, find, find_one, insert_one,
      update_one, delete_one, count, find;
    auto using keeps_self_ping, keeps_self__request with frame.
  intros w. rewrite insert_many_world. apply insert_many_loop_world.
Qed.

Lemma issued_single remote c w r :
  request_for (self w) c = Some r → snd (invoke remote c w) = push r w.
Proof.
  destruct c; simpl; intros [= <-];
    unfold get_databases, create_database, delete_database, get_collections,
      create_collection, delete_collection, find_one, insert_one,
      update_one, delete_one, count, find, try_except, bind;
    rewrite ?ping_eq, ?_request_eq; cbv zeta; try done.
  - by destruct (wrapped _).
  - destruct (wrapped _) as [v|e]; [|done]. by destruct v.
Qed.

Lemma issued_one remote c w r :
  request_for (self w) c = Some r → issued remote c w = [r].
Proof.
  intros Hr. unfold issued. rewrite (issued_single _ _ _ _ Hr). simpl.
  by rewrite drop_app_length.
Qed.

Lemma issued_insert_many remote db coll docs w :
  issued remote (InsertMany db coll docs) w =
  (λ doc, api_request (self w) "POST" ("/" +:+ db +:+ "/" +:+ coll) (Some doc))
    <$> docs.
Proof.
  unfold issued. simpl. rewrite insert_many_world.
  destruct (insert_many_loop_world remote db coll docs [] w) as [_ ->].
  by rewrite drop_app_length.
Qed.

Lemma invoke_appends_requests remote c : appends_requests (invoke remote c).
Proof.
  destruct c; simpl;
    unfold get_databases, create_database, delete_database, get_collections,
      create_collection, delete_collection, find, find_one, insert_one,
      update_one, delete_one, count, find;
    auto using appends_requests_ping, appends_requests__request with frame.
  intros w. rewrite insert_many_world.
  destruct (insert_many_loop_world remote database collection documents [] w)
    as [_ ->].
  by apply prefix_app_r.
Qed.

(** [issued] is exactly what a call appends to the requests sent. *)
Lemma sent_after_invoke remote c w :
  sent (snd (invoke remote c w)) = sent w ++ issued remote c w.
Proof.
  destruct (invoke_appends_requests remote c w) as [k Hk].
  unfold issued. rewrite Hk. by rewrite drop_app_length.
Qed.

(** What a single-request method hands back, in terms of the remote's answer. *)
Lemma invoke_result remote c w r :
  request_for (self w) c = Some r →
  fst (invoke remote c w) =
  let raw := raw_result r (remote (sent w) r) in
  match c with
  | Ping => raw
  | FindOne _ _ _ =>
      match wrapped raw with Returned v => Returned v | Raised _ => Returned PNone end
  | Count _ _ =>
      match wrapped raw with
      | Returned v => fst (py_len v (push r w))
      | Raised e => Raised e
      end
  | _ => wrapped raw
  end.
Proof.
  destruct c; simpl; intros [= <-];
    unfold get_databases, create_database, delete_database, get_collections,
      create_collection, delete_collection, find_one, insert_one,
      update_one, delete_one, count, find, try_except, bind;
    rewrite ?ping_eq, ?_request_eq; cbv zeta; try done.
  - by destruct (wrapped _).
  - by destruct (wrapped _).
Qed.

Lemma __init___trailing_slash e key tmo :
  __init__ (e +:+ "/") key tmo = __init__ e key tmo.
Proof. unfold __init__. by rewrite rstrip_append_slash. Qed.

Lemma __init___headers e key tmo :
  Client.headers (__init__ e key tmo) !! "Authorization" = Some ("Bearer " +:+ key) ∧
  Client.headers (__init__ e key tmo) !! "Content-Type" = Some "application/json".
Proof. unfold __init__; simpl. split; by simplify_map_eq. Qed.

(** * The properties of the wrapper *)

(** C10.  [insert_many] with an empty list of documents returns an empty
    list and sends no request at all (the world is untouched), for every
    database and collection name. *)
Theorem insert_many_empty remote db coll w :
  insert_many remote db coll [] w = (Returned (PList []), w) ∧
  issued remote (InsertMany db coll []) w = [].
Proof. split; [reflexivity|]. by rewrite issued_insert_many. Qed.

(** C9.  Names are put into the path unescaped: [find] on the collection
    name [coll + '/' + doc_id] and [find_one] on [coll] and [doc_id] each
    send exactly one request, and it is the same one: a GET of
    [base_url/db/coll/doc_id] (with the same headers, no body and the same
    timeout). *)
Theorem find_collides_with_find_one remote db coll doc_id w :
  let r :=
    mkRequest "GET"
      (Client.base_url (self w) +:+ "/" +:+ db +:+ "/" +:+ coll +:+ "/" +:+ doc_id)
      (Client.headers (self w)) None (Client.timeout (self w)) in
  issued remote (Find db ((coll +:+ "/") +:+ doc_id)) w = [r] ∧
  issued remote (FindOne db coll doc_id) w = [r] ∧
  issued remote (Find db ((coll +:+ "/") +:+ doc_id)) w =
    issued remote (FindOne db coll doc_id) w.
Proof.
  cbv zeta.
  rewrite (issued_one remote (Find _ _) w _ eq_refl).
  rewrite (issued_one remote (FindOne _ _ _) w _ eq_refl).
  unfold api_request. by rewrite append_assoc.
Qed.

Lemma find_collides_with_find_one_witness :
  issued remote_two_docs (Find "d" "c/7") sample_world =
    [mkRequest "GET" "http://h/api/dudwalls/d/c/7"
       (Client.headers sample_client) None 10] ∧
  issued remote_two_docs (FindOne "d" "c" "7") sample_world =
    [mkRequest "GET" "http://h/api/dudwalls/d/c/7"
       (Client.headers sample_client) None 10] ∧
  issued remote_two_docs (Find "d" "c/7") sample_world =
    issued remote_two_docs (FindOne "d" "c" "7") sample_world.
Proof.
  exact (find_collides_with_find_one remote_two_docs "d" "c" "7" sample_world).
Defined.

(** C8.  No call of any method, successful or not, changes any attribute of
    the client instance. *)
Theorem client_configuration_is_immutable remote c w :
  self (snd (invoke remote c w)) = self w.
Proof. apply invoke_keeps_self. Qed.

(** C7.  For an endpoint [e] without a trailing slash, a client built from
    [e + '/'] sends requests to exactly the URLs a client built from [e]
    does, whatever method is called with whatever arguments, and both use
    [e] itself as endpoint. *)
Theorem trailing_slash_same_urls remote c e key tmo history out :
  last_char e ≠ Some "/"%char →
  req_url <$> issued remote c (mkWorld (__init__ (e +:+ "/") key tmo) history out) =
  req_url <$> issued remote c (mkWorld (__init__ e key tmo) history out) ∧
  Client.endpoint (__init__ (e +:+ "/") key tmo) = e.
Proof.
  intros He. rewrite __init___trailing_slash. split; [done|].
  by apply rstrip_no_trailing_slash.
Qed.

Lemma trailing_slash_same_urls_witness :
  req_url <$> issued remote_two_docs (FindOne "d" "c" "7")
    (mkWorld (__init__ "http://h/" "k" 10) [] []) =
  req_url <$> issued remote_two_docs (FindOne "d" "c" "7")
    (mkWorld (__init__ "http://h" "k" 10) [] []) ∧
  Client.endpoint (__init__ "http://h/" "k" 10) = "http://h".
Proof.
  apply (trailing_slash_same_urls remote_two_docs (FindOne "d" "c" "7")
           "http://h" "k" 10 [] []).
  simpl. discriminate.
Defined.

(** C6, as the code has it.  [delete_database] sends exactly one request: a
    DELETE to [{endpoint}/api/dudwalls/{name}], the endpoint being the one
    given at construction without its trailing slashes. *)
Theorem delete_database_request remote name endpoint key tmo history out :
  issued remote (DeleteDatabase name)
    (mkWorld (__init__ endpoint key tmo) history out) =
  [mkRequest "DELETE" (rstrip "/" endpoint +:+ "/api/dudwalls/" +:+ name)
     (Client.headers (__init__ endpoint key tmo)) None tmo].
Proof.
  rewrite (issued_one remote (DeleteDatabase _) _ _ eq_refl).
  unfold api_request; simpl. by rewrite append_assoc.
Qed.

(** C6 as stated fails: deleting database [t] goes to [.../api/dudwalls/t],
    not to [.../api/dudwalls/]. *)
Lemma delete_database_url_has_the_name :
  (λ r, (req_method r, req_url r)) <$>
    issued remote_two_docs (DeleteDatabase "t") sample_world =
  [("DELETE", "http://h/api/dudwalls/t")] ∧
  "http://h/api/dudwalls/t" ≠ "http://h/api/dudwalls/".
Proof. split; [by vm_compute|discriminate]. Qed.

(** C5, as the code has it.  Every request sent by a method other than
    [ping] carries [Authorization: Bearer <api_key>] and
    [Content-Type: application/json]; the request of [ping] is sent without
    any header of the wrapper's. *)
Theorem requests_carry_credential_except_ping
    remote c endpoint key tmo history out r :
  r ∈ issued remote c (mkWorld (__init__ endpoint key tmo) history out) →
  match c with
  | Ping => req_headers r = ∅
  | _ =>
      req_headers r !! "Authorization" = Some ("Bearer " +:+ key) ∧
      req_headers r !! "Content-Type" = Some "application/json"
  end.
Proof.
  set (w := mkWorld _ _ _).
  destruct (request_for (self w) c) as [r'|] eqn:Hreq.
  - rewrite (issued_one _ _ _ _ Hreq). intros ->%list_elem_of_singleton.
    destruct c; simpl in Hreq; simplify_eq; try done;
      apply __init___headers.
  - destruct c; try done. rewrite issued_insert_many.
    intros (doc & -> & _)%list_elem_of_fmap. apply __init___headers.
Qed.

Lemma requests_carry_credential_except_ping_witness :
  req_headers (api_request sample_client "PUT" "/d/c/7" (Some (PDict [])))
    !! "Authorization" = Some "Bearer k" ∧
  req_headers (api_request sample_client "PUT" "/d/c/7" (Some (PDict [])))
    !! "Content-Type" = Some "application/json".
Proof.
  apply (requests_carry_credential_except_ping remote_404
           (UpdateOne "d" "c" "7" (PDict [])) "http://h" "k" default_timeout [] []).
  vm_compute. apply list_elem_of_here.
Defined.

(** C5 as stated fails: the request of [ping] has neither header. *)
Lemma ping_request_has_no_credential :
  (λ r, (req_url r, req_headers r !! "Authorization", req_headers r !! "Content-Type"))
    <$> issued remote_two_docs Ping sample_world =
  [("http://h/api/health", None, None)].
Proof. by vm_compute. Qed.

(** C4.  Whenever [find] returns a sequence of documents, [count] (from the
    same world, so against the same server answer) returns exactly its
    length, and it does so by sending the one request [find] sends: a GET
    of the whole collection. *)
Theorem count_is_length_of_find remote db coll w docs :
  fst (find remote db coll w) = Returned (PList docs) →
  fst (count remote db coll w) = Returned (PInt (Z.of_nat (length docs))) ∧
  issued remote (Count db coll) w = issued remote (Find db coll) w ∧
  issued remote (Count db coll) w =
    [api_request (self w) "GET" ("/" +:+ db +:+ "/" +:+ coll) None].
Proof.
  intros Hfind.
  rewrite (issued_one remote (Count _ _) w _ eq_refl).
  rewrite (issued_one remote (Find _ _) w _ eq_refl).
  split; [|done].
  unfold count, bind.
  destruct (find remote db coll w) as [[v|e] w']; simpl in Hfind; by simplify_eq.
Qed.

Lemma count_is_length_of_find_witness :
  fst (count remote_two_docs "d" "c" sample_world) = Returned (PInt 2).
Proof.
  apply (count_is_length_of_find remote_two_docs "d" "c" sample_world
           [PDict [("id", PStr "1"); ("a", PInt 1)];
            PDict [("id", PStr "2"); ("a", PInt 2)]]).
  vm_compute. reflexivity.
Defined.

(** C3, as the code has it.  Every method except [find_one] and
    [insert_many] lets a failed request (transport failure, or a 4xx/5xx
    status, of a request that [requests] did send: the timeout is
    positive) reach its caller as a raised exception.  Through [_request],
    that is for every such method but [ping], the failure is folded into
    one generic signal: always an exception of class [Exception] with the
    message ["Dudwalls API error: " + str(cause)], whatever the cause, so
    its type tells the caller nothing; the cause itself stays attached as
    its [__context__].  [ping] raises the exception of [requests] itself,
    unchanged. *)
Theorem surfaced_failures_are_generic_except_ping remote c w r e :
  surfaces_failures c = true →
  request_for (self w) c = Some r →
  0 < Client.timeout (self w) →
  network_failure (remote (sent w) r) = Some e →
  fst (invoke remote c w) =
  Raised match c with
         | Ping => e
         | _ => mkExn Exception ("Dudwalls API error: " +:+ exn_str e) (Some e)
         end.
Proof.
  intros Hc Hr Htmo He. rewrite (invoke_result _ _ _ _ Hr). cbv zeta.
  assert (req_timeout r = Client.timeout (self w)) as Hr'.
  { destruct c; simpl in Hr; by simplify_eq. }
  rewrite (network_failure_raw _ _ _ ltac:(by rewrite Hr') He).
  simpl. rewrite (network_failure_is_RequestException _ _ He).
  by destruct c.
Qed.

Lemma surfaced_failures_are_generic_except_ping_witness :
  fst (invoke remote_404 (Count "d" "c") sample_world) =
  Raised (mkExn Exception
    "Dudwalls API error: 404 Client Error: Not Found for url: http://h/api/dudwalls/d/c"
    (Some (mkExn HTTPError
       "404 Client Error: Not Found for url: http://h/api/dudwalls/d/c" None))).
Proof.
  apply (surfaced_failures_are_generic_except_ping remote_404 (Count "d" "c")
           sample_world
           (api_request sample_client "GET" "/d/c" None)
           (mkExn HTTPError
              "404 Client Error: Not Found for url: http://h/api/dudwalls/d/c"
              None)).
  - reflexivity.
  - reflexivity.
  - reflexivity.
  - vm_compute. reflexivity.
Defined.

(** C3 as stated fails twice over.  For [ping], an unreachable server and a
    404 surface as two different exceptions of [requests], neither of them
    the generic [Exception].  For a method that goes through [_request],
    here [get_databases], the two failures surface as the generic
    [Exception], but each carries its cause as [__context__] (and in its
    message), so the caller can still tell them apart. *)
Lemma surfaced_failures_keep_their_cause :
  fst (invoke remote_down Ping sample_world) =
    Raised (mkExn ConnectionError "Connection refused" None) ∧
  fst (invoke remote_404 Ping sample_world) =
    Raised (mkExn HTTPError
      "404 Client Error: Not Found for url: http://h/api/health" None) ∧
  fst (invoke remote_down GetDatabases sample_world) =
    Raised (mkExn Exception "Dudwalls API error: Connection refused"
      (Some (mkExn ConnectionError "Connection refused" None))) ∧
  fst (invoke remote_404 GetDatabases sample_world) =
    Raised (mkExn Exception
      "Dudwalls API error: 404 Client Error: Not Found for url: http://h/api/dudwalls/"
      (Some (mkExn HTTPError
         "404 Client Error: Not Found for url: http://h/api/dudwalls/" None))) ∧
  ConnectionError ≠ Exception ∧ HTTPError ≠ Exception ∧
  ConnectionError ≠ HTTPError.
Proof. repeat split; by vm_compute. Qed.

(** A transport failure or a 4xx/5xx status does make [_request] fail. *)
Lemma _request_raises_on_network_failure remote method path data w e :
  0 < Client.timeout (self w) →
  network_failure (remote (sent w) (api_request (self w) method path data)) =
    Some e →
  fst (_request remote method path data w) =
  Raised (mkExn Exception ("Dudwalls API error: " +:+ exn_str e) (Some e)).
Proof.
  intros Htmo He. rewrite _request_eq. cbv zeta. simpl.
  rewrite (network_failure_raw (api_request (self w) method path data) _ _ Htmo He).
  simpl.
  by rewrite (network_failure_is_RequestException _ _ He).
Qed.

(** C2.  Whatever makes the underlying request fail (no connection, a
    timeout, a 404, any other error status, an undecodable body),
    [find_one] raises nothing and returns [None]; the result is the same
    [None] for every cause. *)
Theorem find_one_absent_on_failure remote db coll doc_id w e :
  fst (_request remote "GET"
         ("/" +:+ db +:+ "/" +:+ coll +:+ "/" +:+ doc_id) None w) = Raised e →
  fst (find_one remote db coll doc_id w) = Returned PNone.
Proof.
  intros Hfail. unfold find_one, try_except.
  destruct (_request _ _ _ _ w) as [[v|e'] w']; simpl in Hfail; by simplify_eq.
Qed.

Lemma find_one_absent_on_failure_witness :
  fst (find_one remote_404 "d" "c" "missing" sample_world) = Returned PNone.
Proof.
  apply (find_one_absent_on_failure remote_404 "d" "c" "missing" sample_world
           (mkExn Exception
              "Dudwalls API error: 404 Client Error: Not Found for url: http://h/api/dudwalls/d/c/missing"
              (Some (mkExn HTTPError
                 "404 Client Error: Not Found for url: http://h/api/dudwalls/d/c/missing"
                 None)))).
  vm_compute. reflexivity.
Defined.

(** The state of the loop of [insert_many] after its first [n] documents,
    when only the [k]-th insert fails. *)
Lemma insert_many_loop_prefix remote db coll docs (k : nat) vals w :
  length vals = length docs →
  (∀ (j : nat) doc, docs !! j = Some doc →
     let wj := snd (insert_many remote db coll (take j docs) w) in
     if decide (j = k)
     then ∃ e, fst (insert_one remote db coll doc wj) = Raised e
     else ∃ v, vals !! j = Some v ∧
               fst (insert_one remote db coll doc wj) = Returned v) →
  ∀ n : nat, (n ≤ length docs)%nat →
    fst (insert_many_loop remote db coll (take n docs) [] w) =
    Returned (take (n `min` k) vals ++ drop (S k) (take n vals)).
Proof.
  intros Hlen Hins n. induction n as [|n IH]; intros Hn.
  - by rewrite !take_0.
  - destruct (lookup_lt_is_Some_2 docs n) as [doc Hdoc]; [lia|].
    specialize (Hins n doc Hdoc). cbv zeta in Hins.
    rewrite insert_many_world in Hins.
    rewrite (take_S_r _ _ _ Hdoc), insert_many_loop_snoc.
    destruct (insert_many_loop remote db coll (take n docs) [] w)
      as [[acc|e] wn]; simpl in IH, Hins; [|by discriminate IH; lia].
    assert (acc = take (n `min` k) vals ++ drop (S k) (take n vals)) as ->.
    { assert (n ≤ length docs)%nat as Hn' by lia.
      specialize (IH Hn'). by simplify_eq. }
    rewrite insert_many_body_eq.
    destruct (decide (n = k)) as [->|Hne].
    + destruct Hins as [e He].
      destruct (insert_one remote db coll doc wn) as [[v|e'] w'];
        simpl in He; simplify_eq; cbn [fst].
      rewrite Nat.min_id, (Nat.min_r (S k) k) by lia.
      by rewrite !drop_ge by (rewrite length_take; lia).
    + destruct Hins as (v & Hv & Hret).
      destruct (insert_one remote db coll doc wn) as [[v'|e'] w'];
        simpl in Hret; simplify_eq; cbn [fst].
      rewrite (take_S_r _ _ _ Hv).
      destruct (decide (n < k)%nat).
      * rewrite (Nat.min_l n k), (Nat.min_l (S n) k) by lia.
        rewrite !drop_ge by (rewrite ?length_app, length_take; simpl; lia).
        by rewrite (take_S_r _ _ _ Hv), !app_nil_r.
      * rewrite (Nat.min_r n k), (Nat.min_r (S n) k) by lia.
        rewrite drop_app_le by (rewrite length_take; lia).
        by rewrite app_assoc.
Qed.

(** C1.  Let the insert of the [k]-th of [N] documents fail and every other
    insert succeed, the [j]-th returning [vals !! j].  Then [insert_many]
    raises nothing and returns the [N-1] results of the successful inserts
    in input order, the [k]-th left out; and it has sent one insert request
    per document, all [N] of them, in input order. *)
Theorem insert_many_skips_the_failure remote db coll docs (k : nat) vals w :
  length vals = length docs →
  (k < length docs)%nat →
  (∀ (j : nat) doc, docs !! j = Some doc →
     let wj := snd (insert_many remote db coll (take j docs) w) in
     if decide (j = k)
     then ∃ e, fst (insert_one remote db coll doc wj) = Raised e
     else ∃ v, vals !! j = Some v ∧
               fst (insert_one remote db coll doc wj) = Returned v) →
  fst (insert_many remote db coll docs w) = Returned (PList (delete k vals)) ∧
  length (delete k vals) = (length docs - 1)%nat ∧
  issued remote (InsertMany db coll docs) w =
    (λ doc, api_request (self w) "POST" ("/" +:+ db +:+ "/" +:+ coll) (Some doc))
      <$> docs.
Proof.
  intros Hlen Hk Hins. split; [|split].
  - pose proof (insert_many_loop_prefix _ _ _ _ _ _ _ Hlen Hins (length docs))
      as Hloop.
    rewrite firstn_all in Hloop. rewrite insert_many_eq.
    destruct (insert_many_loop remote db coll docs [] w) as [[rs|e] w'];
      simpl in Hloop; [|by discriminate Hloop; lia].
    assert (length docs ≤ length docs)%nat as Hle by lia.
    specialize (Hloop Hle). simplify_eq. simpl.
    rewrite <-Hlen, firstn_all, Nat.min_r by lia.
    by rewrite delete_take_drop.
  - rewrite length_delete; [lia|]. apply lookup_lt_is_Some_2. lia.
  - apply issued_insert_many.
Qed.

Lemma insert_many_skips_the_failure_witness :
  fst (insert_many remote_second_fails "d" "c" three_docs sample_world) =
    Returned (PList [PDict [("n", PInt 0)]; PDict [("n", PInt 2)]]) ∧
  length (delete 1%nat three_docs) = 2%nat ∧
  req_url <$> issued remote_second_fails (InsertMany "d" "c" three_docs) sample_world =
    ["http://h/api/dudwalls/d/c"; "http://h/api/dudwalls/d/c";
     "http://h/api/dudwalls/d/c"].
Proof.
  destruct (insert_many_skips_the_failure remote_second_fails "d" "c"
              three_docs 1%nat three_docs sample_world) as (Hres & Hlen & Hsent).
  - reflexivity.
  - simpl. lia.
  - intros [|[|[|j]]] doc Hdoc; simpl in Hdoc; simplify_eq; vm_compute; eauto.
  - split; [exact Hres|]. split; [exact Hlen|]. rewrite Hsent. reflexivity.
Defined.


(** * Further properties of the wrapper *)

(** ** How many requests, and which *)

(** X1.  Every method sends exactly one request, whether it succeeds or
    fails (nothing is retried, nothing is skipped); [insert_many] sends
    exactly one per document. *)
Theorem one_request_per_call remote c w :
  length (issued remote c w) =
  match c with
  | InsertMany _ _ docs => length docs
  | _ => 1%nat
  end.
Proof.
  destruct (request_for (self w) c) as [r|] eqn:Hreq.
  - rewrite (issued_one _ _ _ _ Hreq). by destruct c.
  - destruct c; try done. by rewrite issued_insert_many, length_fmap.
Qed.

(** X2.  The requests a call sends depend on the client instance and the
    arguments only: not on what was sent before, not on what was printed,
    and not on how the remote service answers. *)
Theorem requests_do_not_depend_on_the_remote remote1 remote2 c w1 w2 :
  self w1 = self w2 →
  issued remote1 c w1 = issued remote2 c w2.
Proof.
  intros Hself.
  destruct (request_for (self w1) c) as [r|] eqn:Hreq.
  - rewrite (issued_one remote1 c w1 r Hreq).
    rewrite Hself in Hreq. by rewrite (issued_one remote2 c w2 r Hreq).
  - destruct c; try done. by rewrite !issued_insert_many, Hself.
Qed.

Lemma requests_do_not_depend_on_the_remote_witness :
  issued remote_down (InsertMany "d" "c" three_docs) sample_world =
  issued remote_second_fails (InsertMany "d" "c" three_docs)
    (mkWorld sample_client [health_request sample_client] ["hello"]).
Proof.
  apply (requests_do_not_depend_on_the_remote remote_down remote_second_fails
           (InsertMany "d" "c" three_docs) sample_world
           (mkWorld sample_client [health_request sample_client] ["hello"])).
  reflexivity.
Defined.

(** X3.  Every request, the one of [ping] included, is sent with the
    timeout the client holds. *)
Theorem every_request_has_the_client_timeout remote c w r :
  r ∈ issued remote c w →
  req_timeout r = Client.timeout (self w).
Proof.
  destruct (request_for (self w) c) as [r'|] eqn:Hreq.
  - rewrite (issued_one _ _ _ _ Hreq). intros ->%list_elem_of_singleton.
    destruct c; simpl in Hreq; by simplify_eq.
  - destruct c; try done. rewrite issued_insert_many.
    by intros (doc & -> & _)%list_elem_of_fmap.
Qed.

Lemma every_request_has_the_client_timeout_witness :
  req_timeout (health_request sample_client) = 10.
Proof.
  apply (every_request_has_the_client_timeout remote_down Ping sample_world).
  vm_compute. apply list_elem_of_here.
Defined.

(** X4.  The JSON body of every request: [create_database] and
    [create_collection] send [{"name": ...}], [insert_one], [insert_many]
    and [update_one] send the caller's document as it is, and every other
    method sends no body. *)
Theorem request_bodies remote c w r :
  r ∈ issued remote c w →
  match c with
  | CreateDatabase name => req_json r = Some (PDict [("name", PStr name)])
  | CreateCollection _ coll => req_json r = Some (PDict [("name", PStr coll)])
  | InsertOne _ _ doc => req_json r = Some doc
  | UpdateOne _ _ _ upd => req_json r = Some upd
  | InsertMany _ _ docs => ∃ doc, doc ∈ docs ∧ req_json r = Some doc
  | _ => req_json r = None
  end.
Proof.
  destruct (request_for (self w) c) as [r'|] eqn:Hreq.
  - rewrite (issued_one _ _ _ _ Hreq). intros ->%list_elem_of_singleton.
    destruct c; simpl in Hreq; by simplify_eq.
  - destruct c; try done. rewrite issued_insert_many.
    intros (doc & -> & Hdoc)%list_elem_of_fmap. by exists doc.
Qed.

Lemma request_bodies_witness :
  req_json (api_request sample_client "PUT" "/d/c/7" (Some (PDict [("a", PInt 1)])))
  = Some (PDict [("a", PInt 1)]).
Proof.
  apply (request_bodies remote_down
           (UpdateOne "d" "c" "7" (PDict [("a", PInt 1)])) sample_world).
  vm_compute. apply list_elem_of_here.
Defined.

(** X5.  The HTTP method and URL of every request, for a client built from
    [endpoint] (written [E] once its trailing slashes are gone):
    [ping] GETs [E/api/health]; listing and creating databases GET and POST
    [E/api/dudwalls/]; a database name is appended for deleting the
    database and for listing and creating collections; database and
    collection for deleting the collection, reading all documents, counting
    and inserting; database, collection and identifier for reading,
    updating and deleting one document. *)
Theorem request_methods_and_urls remote c endpoint key tmo history out r :
  r ∈ issued remote c (mkWorld (__init__ endpoint key tmo) history out) →
  let E := rstrip "/" endpoint in
  (req_method r, req_url r) =
  match c with
  | Ping => ("GET", E +:+ "/api/health")
  | GetDatabases => ("GET", E +:+ "/api/dudwalls/")
  | CreateDatabase _ => ("POST", E +:+ "/api/dudwalls/")
  | DeleteDatabase name => ("DELETE", E +:+ "/api/dudwalls/" +:+ name)
  | GetCollections db => ("GET", E +:+ "/api/dudwalls/" +:+ db)
  | CreateCollection db _ => ("POST", E +:+ "/api/dudwalls/" +:+ db)
  | DeleteCollection db coll =>
      ("DELETE", E +:+ "/api/dudwalls/" +:+ db +:+ "/" +:+ coll)
  | Find db coll | Count db coll =>
      ("GET", E +:+ "/api/dudwalls/" +:+ db +:+ "/" +:+ coll)
  | InsertOne db coll _ | InsertMany db coll _ =>
      ("POST", E +:+ "/api/dudwalls/" +:+ db +:+ "/" +:+ coll)
  | FindOne db coll doc_id =>
      ("GET", E +:+ "/api/dudwalls/" +:+ db +:+ "/" +:+ coll +:+ "/" +:+ doc_id)
  | UpdateOne db coll doc_id _ =>
      ("PUT", E +:+ "/api/dudwalls/" +:+ db +:+ "/" +:+ coll +:+ "/" +:+ doc_id)
  | DeleteOne db coll doc_id =>
      ("DELETE", E +:+ "/api/dudwalls/" +:+ db +:+ "/" +:+ coll +:+ "/" +:+ doc_id)
  end.
Proof.
  set (w := mkWorld _ _ _). intros Hr E.
  destruct (request_for (self w) c) as [r'|] eqn:Hreq.
  - rewrite (issued_one _ _ _ _ Hreq) in Hr.
    apply list_elem_of_singleton in Hr as ->.
    destruct c; simpl in Hreq; simplify_eq; unfold api_request; simpl;
      try done; by rewrite append_assoc.
  - destruct c; try done. rewrite issued_insert_many in Hr.
    apply list_elem_of_fmap in Hr as (doc & -> & _).
    unfold api_request; simpl. by rewrite append_assoc.
Qed.

Lemma request_methods_and_urls_witness :
  (req_method (api_request (__init__ "http://h//" "k" 10) "PUT" "/d/c/7" (Some PNone)),
   req_url (api_request (__init__ "http://h//" "k" 10) "PUT" "/d/c/7" (Some PNone)))
  = ("PUT", "http://h/api/dudwalls/d/c/7").
Proof.
  apply (request_methods_and_urls remote_down (UpdateOne "d" "c" "7" PNone)
           "http://h//" "k" 10 [] []).
  vm_compute. apply list_elem_of_here.
Defined.

(** X6.  Requests that go through [_request] carry exactly the three
    headers set at construction: the bearer credential, the JSON content
    type and the SDK's user agent. *)
Theorem api_requests_carry_exactly_three_headers
    remote c endpoint key tmo history out r :
  r ∈ issued remote c (mkWorld (__init__ endpoint key tmo) history out) →
  match c with
  | Ping => True
  | _ =>
      req_headers r =
      {[ "Authorization" := "Bearer " +:+ key;
         "Content-Type" := "application/json";
         "User-Agent" := "Dudwalls-Python-SDK/1.0.0" ]}
  end.
Proof.
  set (w := mkWorld _ _ _).
  destruct (request_for (self w) c) as [r'|] eqn:Hreq.
  - rewrite (issued_one _ _ _ _ Hreq). intros ->%list_elem_of_singleton.
    destruct c; simpl in Hreq; by simplify_eq.
  - destruct c; try done. rewrite issued_insert_many.
    by intros (doc & -> & _)%list_elem_of_fmap.
Qed.

Lemma api_requests_carry_exactly_three_headers_witness :
  req_headers (api_request sample_client "GET" "/" None) =
  {[ "Authorization" := "Bearer k";
     "Content-Type" := "application/json";
     "User-Agent" := "Dudwalls-Python-SDK/1.0.0" ]}.
Proof.
  apply (api_requests_carry_exactly_three_headers remote_down GetDatabases
           "http://h" "k" default_timeout [] []).
  vm_compute. apply list_elem_of_here.
Defined.

(** ** What the methods return and raise *)




Lemma raw_result_success r resp v :
  0 < req_timeout r →
  ¬ (400 ≤ status_code resp < 600) →
  body resp = JsonBody v →
  raw_result r (Replied resp) = Returned v.
Proof.
  intros Htmo Hcode Hbody. unfold raw_result, answer_result.
  repeat case_bool_decide; try lia. by rewrite Hbody.
Qed.

Lemma raw_result_not_json r resp message context :
  body resp = NotJson message context →
  ∃ e, raw_result r (Replied resp) = Raised e.
Proof.
  intros Hbody. unfold raw_result, answer_result.
  repeat case_bool_decide; eauto. rewrite Hbody. eauto.
Qed.

Lemma request_for_timeout cl c r :
  request_for cl c = Some r → req_timeout r = Client.timeout cl.
Proof. destruct c; simpl; by intros [= <-]. Qed.



(** X8.  When [requests] sends the request of a single-request method (the
    timeout is positive) and the remote answers with a status outside
    400..599 and a JSON body, the method returns that decoded body as it is
    ([count] returns its [len]). *)
Theorem successful_reply_is_returned_unchanged remote c w r resp v :
  request_for (self w) c = Some r →
  0 < Client.timeout (self w) →
  remote (sent w) r = Replied resp →
  ¬ (400 ≤ status_code resp < 600) →
  body resp = JsonBody v →
  fst (invoke remote c w) =
  match c with
  | Count _ _ => fst (py_len v w)
  | _ => Returned v
  end.
Proof.
  intros Hreq Htmo Hreply Hcode Hbody.
  rewrite (invoke_result _ _ _ _ Hreq). cbv zeta.
  rewrite <-(request_for_timeout _ _ _ Hreq) in Htmo.
  rewrite Hreply, (raw_result_success _ _ _ Htmo Hcode Hbody).
  destruct c; try done. by destruct v.
Qed.

Lemma successful_reply_is_returned_unchanged_witness :
  fst (invoke remote_two_docs (FindOne "d" "c" "1") sample_world) =
  Returned two_docs.
Proof.
  apply (successful_reply_is_returned_unchanged remote_two_docs
           (FindOne "d" "c" "1") sample_world
           (api_request sample_client "GET" "/d/c/1" None)
           (mkResponse 200 "OK" "http://h/api/dudwalls/d/c/1" (JsonBody two_docs))
           two_docs).
  - reflexivity.
  - reflexivity.
  - reflexivity.
  - simpl. lia.
  - reflexivity.
Defined.

(** X9.  A reply whose body is not JSON never yields a result, whatever its
    status: every single-request method raises, except [find_one], which
    returns [None].  So a [204 No Content] makes [delete_one] fail. *)
Theorem reply_without_json_is_never_a_result remote c w r resp message context :
  request_for (self w) c = Some r →
  remote (sent w) r = Replied resp →
  body resp = NotJson message context →
  match c with
  | FindOne _ _ _ => fst (invoke remote c w) = Returned PNone
  | _ => ∃ e, fst (invoke remote c w) = Raised e
  end.
Proof.
  intros Hreq Hreply Hbody.
  rewrite (invoke_result _ _ _ _ Hreq). cbv zeta. rewrite Hreply.
  destruct (raw_result_not_json r resp message context Hbody) as [e ->].
  destruct c; simpl; try destruct (is_RequestException _); eauto.
Qed.

Lemma reply_without_json_is_never_a_result_witness :
  ∃ e, fst (invoke remote_no_content (DeleteOne "d" "c" "1") sample_world) =
       Raised e.
Proof.
  apply (reply_without_json_is_never_a_result remote_no_content
           (DeleteOne "d" "c" "1") sample_world
           (api_request sample_client "DELETE" "/d/c/1" None)
           (mkResponse 204 "No Content" "http://h/api/dudwalls/d/c/1"
              (NotJson "Expecting value" None))
           "Expecting value" None).
  - reflexivity.
  - reflexivity.
  - reflexivity.
Defined.

(** X10.  When [find] returns a value that has no length (null, a boolean,
    a number), [count] raises a [TypeError], not the wrapper's generic
    failure. *)
Theorem count_of_a_value_without_length remote db coll w v :
  fst (find remote db coll w) = Returned v →
  match v with PList _ | PDict _ | PStr _ => False | _ => True end →
  ∃ message, fst (count remote db coll w) = Raised (mkExn TypeError message None).
Proof.
  intros Hfind Hv. unfold count, bind.
  destruct (find remote db coll w) as [[v'|e] w']; simpl in Hfind; simplify_eq.
  destruct v; try done; simpl; eauto.
Qed.

Lemma count_of_a_value_without_length_witness :
  ∃ message,
    fst (count remote_seven "d" "c" sample_world) =
    Raised (mkExn TypeError message None).
Proof.
  apply (count_of_a_value_without_length remote_seven "d" "c" sample_world (PInt 7)).
  - vm_compute. reflexivity.
  - exact I.
Defined.

(** X11.  No method other than [insert_many] prints anything. *)
Theorem only_insert_many_prints remote c w :
  match c with
  | InsertMany _ _ _ => True
  | _ => stdout (snd (invoke remote c w)) = stdout w
  end.
Proof.
  destruct (request_for (self w) c) as [r|] eqn:Hreq.
  - rewrite (issued_single _ _ _ _ Hreq). by destruct c.
  - by destruct c.
Qed.

(** ** The endpoint kept by the constructor *)

Lemma rstrip_no_trailing (e : string) : last_char (rstrip "/" e) ≠ Some "/"%char.
Proof.
  induction e as [|a e IH]; [done|]. rewrite rstrip_cons.
  destruct (rstrip "/" e) as [|b t] eqn:Hr.
  - simpl. destruct (Ascii.eqb_spec a "/"); [done|]. simpl. congruence.
  - exact IH.
Qed.

Lemma rstrip_split (e : string) :
  ∃ tail, e = rstrip "/" e +:+ tail ∧ only_chars "/" tail = true.
Proof.
  induction e as [|a e (tail & Htail & Hall)]; [by exists ""|].
  rewrite rstrip_cons. destruct (rstrip "/" e) as [|b t] eqn:Hr.
  - simpl. destruct (Ascii.eqb_spec a "/") as [->|Hne].
    + exists (String "/" e). split; [done|]. simpl.
      change ("" +:+ tail) with tail in Htail. by rewrite Htail.
    + exists e. split; [done|].
      change ("" +:+ tail) with tail in Htail. by rewrite Htail.
  - exists tail. split; [|done].
    change (String a e = String a (String b t +:+ tail)). by rewrite <-Htail.
Qed.

(** X12.  The endpoint the client keeps never ends in a slash, and the
    endpoint given is the kept one followed by slashes only. *)
Theorem kept_endpoint_has_no_trailing_slash e key tmo :
  last_char (Client.endpoint (__init__ e key tmo)) ≠ Some "/"%char ∧
  ∃ tail, e = Client.endpoint (__init__ e key tmo) +:+ tail ∧
          only_chars "/" tail = true.
Proof. split; [apply rstrip_no_trailing|apply rstrip_split]. Qed.

(** X13.  Building a client again from the endpoint a client keeps gives
    the same client. *)
Theorem rebuilding_from_kept_endpoint e key tmo :
  __init__ (Client.endpoint (__init__ e key tmo)) key tmo = __init__ e key tmo.
Proof.
  unfold __init__ at 1 3. simpl.
  by rewrite (rstrip_no_trailing_slash _ (rstrip_no_trailing e)).
Qed.

(** ** More on [insert_many] *)

Lemma insert_many_loop_accounts remote db coll docs acc w :
  ∃ rs lines w',
    insert_many_loop remote db coll docs acc w = (Returned (acc ++ rs), w') ∧
    stdout w' = stdout w ++ lines ∧
    (length rs + length lines = length docs)%nat ∧
    Forall (λ line, ∃ cause, line = "Failed to insert document: " +:+ cause)
      lines.
Proof.
  revert acc w. induction docs as [|d docs IH]; intros acc w.
  - exists [], [], w. by rewrite !app_nil_r.
  - rewrite insert_many_loop_cons, insert_many_body_eq.
    rewrite insert_one_eq. cbv zeta.
    destruct (wrapped _) as [v|e]; simpl.
    + destruct (IH (acc ++ [v]) (push (api_request (self w) "POST"
        ("/" +:+ db +:+ "/" +:+ coll) (Some d)) w))
        as (rs & lines & w' & -> & Hout & Hlen & Hlines).
      exists (v :: rs), lines, w'. rewrite <-app_assoc. simpl in *. eauto with lia.
    + match goal with |- context [insert_many_loop _ _ _ _ acc ?w1] =>
        destruct (IH acc w1) as (rs & lines & w' & -> & Hout & Hlen & Hlines) end.
      simpl in Hout. eexists rs, (_ :: lines), w'.
      rewrite Hout, <-app_assoc. simpl. split_and!; eauto with lia.
Qed.

(** X14.  [insert_many] accounts for every document: it returns a list and
    prints lines such that results and lines together are as many as the
    documents; it prints nothing else, and every line starts with
    ["Failed to insert document: "]. *)
Theorem insert_many_accounts_for_every_document remote db coll docs w :
  ∃ results lines,
    fst (insert_many remote db coll docs w) = Returned (PList results) ∧
    stdout (snd (insert_many remote db coll docs w)) = stdout w ++ lines ∧
    (length results + length lines = length docs)%nat ∧
    Forall (λ line, ∃ cause, line = "Failed to insert document: " +:+ cause)
      lines.
Proof.
  destruct (insert_many_loop_accounts remote db coll docs [] w)
    as (rs & lines & w' & Hloop & Hout & Hlen & Hlines).
  exists rs, lines. by rewrite insert_many_eq, Hloop.
Qed.

Lemma insert_many_loop_app remote db coll docs1 docs2 acc w :
  insert_many_loop remote db coll (docs1 ++ docs2) acc w =
  match insert_many_loop remote db coll docs1 acc w with
  | (Returned acc', w') => insert_many_loop remote db coll docs2 acc' w'
  | (Raised e, w') => (Raised e, w')
  end.
Proof.
  revert acc w. induction docs1 as [|d docs1 IH]; intros acc w; [done|].
  change ((d :: docs1) ++ docs2) with (d :: (docs1 ++ docs2)).
  rewrite !insert_many_loop_cons.
  destruct (insert_many_body remote db coll d acc w) as [[acc1|e] w1]; [apply IH|done].
Qed.

Lemma insert_many_loop_acc remote db coll docs acc w :
  insert_many_loop remote db coll docs acc w =
  match insert_many_loop remote db coll docs [] w with
  | (Returned rs, w') => (Returned (acc ++ rs), w')
  | (Raised e, w') => (Raised e, w')
  end.
Proof.
  revert acc w. induction docs as [|d docs IH]; intros acc w.
  - simpl. unfold ret. by rewrite app_nil_r.
  - rewrite !insert_many_loop_cons, !insert_many_body_eq.
    destruct (insert_one remote db coll d w) as [[v|e] w1].
    + rewrite (IH (acc ++ [v])), (IH ([] ++ [v])).
      destruct (insert_many_loop remote db coll docs [] w1) as [[rs|e] w2]; [|done].
      by rewrite <-app_assoc.
    + rewrite (IH acc).
      by destruct (insert_many_loop remote db coll docs [] _) as [[rs|e'] w2].
Qed.

(** X15.  Inserting two batches one after the other is inserting their
    concatenation: the second batch starts from the world the first one
    left, and the results are concatenated. *)
Theorem insert_many_of_a_concatenation remote db coll docs1 docs2 w :
  ∃ results1 results2 w1 w2,
    insert_many remote db coll docs1 w = (Returned (PList results1), w1) ∧
    insert_many remote db coll docs2 w1 = (Returned (PList results2), w2) ∧
    insert_many remote db coll (docs1 ++ docs2) w =
      (Returned (PList (results1 ++ results2)), w2).
Proof.
  destruct (insert_many_loop_accounts remote db coll docs1 [] w)
    as (r1 & l1 & w1 & H1 & _).
  destruct (insert_many_loop_accounts remote db coll docs2 [] w1)
    as (r2 & l2 & w2 & H2 & _).
  simpl in H1, H2. exists r1, r2, w1, w2.
  rewrite !insert_many_eq, insert_many_loop_app, H1.
  by rewrite (insert_many_loop_acc _ _ _ docs2 r1), H2.
Qed.

(** ** Names that change the meaning of a call *)

(** X16.  Names go into the path as they are, so a slash in a name turns a
    call into another one: deleting the database [db + '/' + coll] is
    deleting the collection [coll] of [db], and deleting the collection
    [coll + '/' + doc_id] is deleting the document [doc_id] of [coll]; the
    calls are indistinguishable in every respect. *)
Theorem delete_calls_collide remote db coll doc_id w :
  invoke remote (DeleteDatabase ((db +:+ "/") +:+ coll)) w =
    invoke remote (DeleteCollection db coll) w ∧
  invoke remote (DeleteCollection db ((coll +:+ "/") +:+ doc_id)) w =
    invoke remote (DeleteOne db coll doc_id) w.
Proof.
  simpl. unfold delete_database, delete_collection, delete_one.
  by rewrite !append_assoc.
Qed.

(** X17.  With the empty string as database name, listing the collections
    is listing the databases and creating a collection is creating a
    database of that name: the calls are indistinguishable in every
    respect. *)
Theorem empty_database_name_addresses_the_root remote name w :
  invoke remote (GetCollections "") w = invoke remote GetDatabases w ∧
  invoke remote (CreateCollection "" name) w =
    invoke remote (CreateDatabase name) w.
Proof. done. Qed.
